(** * 7TV emote set to Telegram sticker set: the conversion pipeline

    A shallow embedding of [7tv_telegram_bot.py] (class
    [SevenTVToTelegramBot] and the [/convert] command handler) and the
    properties of its conversion pipeline.

    The Python code is sequential ([await] is the only scheduling point and
    nothing runs concurrently), so a coroutine is modelled as a computation
    that returns a value or raises, together with the trace of the external
    calls it made, in the order it made them.  The collaborators (the HTTP
    client, Pillow's decoder, the Telegram Bot API) are the fields of a
    [world]; everything else is the bot's own code. *)

From Stdlib Require Import String Ascii ZArith List Bool Lia DecimalString.
Import ListNotations.

Local Open Scope string_scope.
Local Open Scope Z_scope.

(** ** Python values, exceptions and coroutines *)

Module Py.

(** The exceptions the pipeline meets: [Exception(msg)] raised by the bot
    itself, the [KeyError] of a failed [d[key]] lookup, and whatever a
    library (aiohttp, Pillow, python-telegram-bot) raises.  All three are
    subclasses of [Exception], so [except Exception] catches each. *)
Inductive exn : Type :=
| Exception (msg : string)
| KeyError (key : string)
| LibraryError (msg : string).

(** [str(e)], as the f-strings [f"...{e}"] compute it. *)
Definition str (e : exn) : string :=
  match e with
  | Exception msg => msg
  | KeyError key => "'" ++ key ++ "'"
  | LibraryError msg => msg
  end.

(** [f"{n}"] for an [int]. *)
Definition str_int (n : Z) : string := NilZero.string_of_int (Z.to_int n).

(** [str(n)] for a [len(...)]. *)
Definition str_len (n : nat) : string := NilZero.string_of_uint (Nat.to_uint n).

(** Truth value of an optional string: [None] and [""] are falsy. *)
Definition truthy (o : option string) : bool :=
  match o with
  | Some s => negb (String.eqb s "")
  | None => false
  end.

Inductive result (A : Type) : Type :=
| Ok (a : A)
| Raise (e : exn).
Arguments Ok {A} a.
Arguments Raise {A} e.

Definition is_ok {A} (r : result A) : bool :=
  match r with Ok _ => true | Raise _ => false end.

Section Coroutine.
(** [E] is the type of the observable events. *)
Context {E : Type}.

Definition M (A : Type) : Type := (result A * list E)%type.

Definition ret {A} (a : A) : M A := (Ok a, []).
Definition raise {A} (e : exn) : M A := (Raise e, []).

(** An external call: it leaves [ev] in the trace and yields what the
    collaborator answered. *)
Definition call {A} (ev : E) (answer : result A) : M A := (answer, [ev]).

Definition bind {A B} (m : M A) (k : A -> M B) : M B :=
  match fst m with
  | Ok a => let r := k a in (fst r, (snd m ++ snd r)%list)
  | Raise e => (Raise e, snd m)
  end.

(** [try: m / except Exception as e: handler e] *)
Definition try_except {A} (m : M A) (handler : exn -> M A) : M A :=
  match fst m with
  | Ok a => (Ok a, snd m)
  | Raise e => let r := handler e in (fst r, (snd m ++ snd r)%list)
  end.

(** [for x in xs: s = body s x], the loop state threaded through. *)
Fixpoint for_each {A S} (body : S -> A -> M S) (xs : list A) (s : S) : M S :=
  match xs with
  | [] => ret s
  | x :: xs' => bind (body s x) (fun s' => for_each body xs' s')
  end.
End Coroutine.
Arguments M E A : clear implicits.

End Py.
Import Py.

Notation "x <- m ;; k" := (bind m (fun x => k))
  (at level 61, m at next level, right associativity).
Notation "m ;;; k" := (bind m (fun _ => k))
  (at level 61, right associativity).

(** ** Pillow images *)

Module PIL.

(** [Image.Resampling] *)
Inductive Resampling : Type :=
| NEAREST | BOX | BILINEAR | HAMMING | BICUBIC | LANCZOS.

(** What the pipeline can observe of an [Image]: its colour mode, its size
    and, for an image that came out of [resize], the filter that produced
    its pixels. *)
Record Image : Type := {
  img_mode : string;
  img_width : Z;
  img_height : Z;
  img_resampled : option Resampling
}.

(** [img.convert(mode)] *)
Definition convert (mode : string) (img : Image) : Image :=
  {| img_mode := mode;
     img_width := img_width img;
     img_height := img_height img;
     img_resampled := img_resampled img |}.

(** [img.resize(size, resample)]: the result has exactly the requested
    size, whatever the size of [img]. *)
Definition resize (size : Z * Z) (resample : Resampling) (img : Image) : Image :=
  {| img_mode := img_mode img;
     img_width := fst size;
     img_height := snd size;
     img_resampled := Some resample |}.

(** An [io.BytesIO] that holds one encoded image: the format it was saved
    in, the image, and the position of the stream. *)
Record BytesIO : Type := {
  buf_format : string;
  buf_image : Image;
  buf_pos : Z
}.

(** [output = io.BytesIO(); img.save(output, format=fmt)]: after writing,
    the stream stands at its end; the model keeps the position abstract
    as [-1] until [seek] sets it. *)
Definition save (fmt : string) (img : Image) : BytesIO :=
  {| buf_format := fmt; buf_image := img; buf_pos := -1 |}.

(** [output.seek(pos)] *)
Definition seek (pos : Z) (b : BytesIO) : BytesIO :=
  {| buf_format := buf_format b; buf_image := buf_image b; buf_pos := pos |}.

End PIL.

(** ** The 7TV payload *)

(** An entry of [emote['data']['host']['files']]; the bot reads [name] only,
    [file_format] stands for the fields it ignores. *)
Record file : Type := {
  file_name : string;
  file_format : string
}.

(** An entry of [emotes_data['emotes']]: [emote['name']],
    [emote['data']['host']['url']] and [emote['data']['host']['files']]. *)
Record emote : Type := {
  emote_name : string;
  host_url : string;
  host_files : list file
}.

(** The JSON object of a 200 reply.  Its two keys may be missing, which is
    what [emotes_data['emotes']] and [emotes_data.get(...)] tell apart. *)
Record emotes_data : Type := {
  data_name : option string;
  data_emotes : option (list emote)
}.

(** ** The Telegram side *)

(** [telegram.InputSticker(sticker=..., emoji_list=..., format=...)] *)
Record InputSticker : Type := {
  sticker : PIL.BytesIO;
  emoji_list : list string;
  format : string
}.

(** The keyword arguments of [bot.create_new_sticker_set]. *)
Record sticker_set_request : Type := {
  req_user_id : Z;
  req_name : string;
  req_title : string;
  req_stickers : list InputSticker;
  req_sticker_format : string
}.

(** ** Collaborators and the trace *)

(** An aiohttp response: [response.status], [await response.json()] and
    [await response.read()]. *)
Record response : Type := {
  status : Z;
  json : result emotes_data;
  read : list Byte.byte
}.

Inductive event : Type :=
| EvHttpGet (url : string)
| EvGetMe
| EvCreateNewStickerSet (req : sticker_set_request)
| EvPrint (line : string)
| EvReplyText (text : string).

Record world : Type := {
  (** [session.get(url)]; a transport failure raises. *)
  http_get : string -> result response;
  (** [Image.open(io.BytesIO(data))]; an unparseable payload raises. *)
  image_open : list Byte.byte -> result PIL.Image;
  (** [(await bot.get_me()).username] *)
  get_me_username : result string;
  (** [await bot.create_new_sticker_set(...)] *)
  create_new_sticker_set : sticker_set_request -> result bool
}.

(** A coroutine of the bot. *)
Definition coroutine (A : Type) : Type := M event A.

Definition print (line : string) : coroutine unit := call (EvPrint line) (Ok tt).
Definition reply_text (text : string) : coroutine unit := call (EvReplyText text) (Ok tt).

(** ** class SevenTVToTelegramBot *)

Section SevenTVToTelegramBot.

Variable w : world.

(** [get_7tv_emote_set(self, set_id)] *)
Definition get_7tv_emote_set (set_id : string) : coroutine emotes_data :=
  let url := "https://7tv.io/v3/emote-sets/" ++ set_id in
  resp <- call (EvHttpGet url) (http_get w url) ;;
  if status resp =? 200 then
    data <- (json resp, []) ;;
    ret data
  else
    raise (Exception ("Failed to fetch 7TV data: " ++ str_int (status resp))).

(** [download_emote_image(self, emote_url, size="2x")] *)
Definition download_emote_image (emote_url : string) : coroutine PIL.BytesIO :=
  resp <- call (EvHttpGet emote_url) (http_get w emote_url) ;;
  if status resp =? 200 then
    let image_data := read resp in
    img <- (image_open w image_data, []) ;;
    let img := if negb (String.eqb (PIL.img_mode img) "RGBA")
               then PIL.convert "RGBA" img else img in
    let img := PIL.resize (512, 512) PIL.LANCZOS img in
    let output := PIL.save "PNG" img in
    let output := PIL.seek 0 output in
    ret output
  else
    raise (Exception ("Failed to download image: " ++ str_int (status resp))).

(** One of the two scans of [create_telegram_sticker_set]:
    [for host in files: if host['name'] == wanted: ...; break]. *)
Definition scan_files (wanted : string) (files : list file) : option file :=
  find (fun host => String.eqb (file_name host) wanted) files.

(** [f"https:{emote['data']['host']['url']}/{host['name']}"] *)
Definition file_url (e : emote) (host : file) : string :=
  "https:" ++ host_url e ++ "/" ++ file_name host.

(** Lines 62 to 74 of [create_telegram_sticker_set]: the value of
    [image_url] when the two scans are over. *)
Definition best_image_url (e : emote) : option string :=
  let image_url : option string := None in
  let image_url :=
    match scan_files "2x.webp" (host_files e) with
    | Some host => Some (file_url e host)
    | None => image_url
    end in
  if negb (truthy image_url) then
    match scan_files "1x.webp" (host_files e) with
    | Some host => Some (file_url e host)
    | None => image_url
    end
  else image_url.

(** The body of the loop over [emotes_data['emotes']]; [stickers] is the
    list the loop appends to. *)
Definition process_emote (stickers : list InputSticker) (e : emote)
  : coroutine (list InputSticker) :=
  let name := emote_name e in
  let image_url := best_image_url e in
  if truthy image_url then
    try_except
      (image_data <- download_emote_image
                       (match image_url with Some u => u | None => "" end) ;;
       let sticker :=
         {| sticker := image_data;
            emoji_list := ["😀"];
            format := "static" |} in
       let stickers := (stickers ++ [sticker])%list in
       print ("Processed emote: " ++ name) ;;;
       ret stickers)
      (fun e' =>
         print ("Failed to process emote " ++ name ++ ": " ++ str e') ;;;
         ret stickers)
  else ret stickers.

(** [emotes_data['emotes']] *)
Definition getitem_emotes (d : emotes_data) : coroutine (list emote) :=
  match data_emotes d with
  | Some emotes => ret emotes
  | None => raise (KeyError "emotes")
  end.

(** [create_telegram_sticker_set(self, user_id, set_name, set_title, emotes_data)] *)
Definition create_telegram_sticker_set
    (user_id : Z) (set_name set_title : string) (d : emotes_data) : coroutine string :=
  let stickers : list InputSticker := [] in
  emotes <- getitem_emotes d ;;
  stickers <- for_each process_emote emotes stickers ;;
  try_except
    (let req :=
       {| req_user_id := user_id;
          req_name := set_name;
          req_title := set_title;
          req_stickers := firstn 50 stickers;
          req_sticker_format := "static" |} in
     success <- call (EvCreateNewStickerSet req) (create_new_sticker_set w req) ;;
     if (success : bool) then
       let sticker_set_url := "https://t.me/addstickers/" ++ set_name in
       ret sticker_set_url
     else raise (Exception "Failed to create sticker set"))
    (fun e => raise (Exception ("Error creating sticker set: " ++ str e))).

(** The [if custom_name: ... else: ...] of [convert_7tv_set]. *)
Definition derive_set_name
    (set_id : string) (custom_name : option string) (bot_username : string)
  : string :=
  if truthy custom_name then
    match custom_name with Some c => c | None => "" end
      ++ "_by_" ++ bot_username
  else
    "7tv_" ++ set_id ++ "_by_" ++ bot_username.

(** [emotes_data.get('name', f"7TV Emotes - {set_id}")] *)
Definition get_name (d : emotes_data) (set_id : string) : string :=
  match data_name d with
  | Some n => n
  | None => "7TV Emotes - " ++ set_id
  end.

(** [len(emotes_data.get('emotes', []))] *)
Definition len_get_emotes (d : emotes_data) : nat :=
  length (match data_emotes d with Some emotes => emotes | None => [] end).

(** [convert_7tv_set(self, user_id, set_id, custom_name=None)] *)
Definition convert_7tv_set
    (user_id : Z) (set_id : string) (custom_name : option string)
  : coroutine (string * nat) :=
  d <- get_7tv_emote_set set_id ;;
  bot_username <- call EvGetMe (get_me_username w) ;;
  let set_name := derive_set_name set_id custom_name bot_username in
  let set_title := get_name d set_id in
  sticker_set_url <- create_telegram_sticker_set user_id set_name set_title d ;;
  ret (sticker_set_url, len_get_emotes d).

(** [convert_command(update, context)]: [args] is [context.args] and
    [user_id] is [update.effective_user.id]. *)
Definition convert_command (args : list string) (user_id : Z) : coroutine unit :=
  match args with
  | [set_id] =>
      reply_text "🔄 Converting your 7TV emote set to Telegram stickers..." ;;;
      try_except
        (r <- convert_7tv_set user_id set_id None ;;
         let '(sticker_url, emote_count) := r in
         reply_text ("✅ Successfully converted " ++ str_len emote_count
                     ++ " emotes!" ++ String "010" "Add your sticker set: "
                     ++ sticker_url))
        (fun e => reply_text ("❌ Error: " ++ str e))
  | _ =>
      reply_text ("Usage: /convert <7TV_SET_ID>" ++ String "010"
                  "Example: /convert 01K1BPC2WFZB8QA3T04MPBTSS9")
  end.

End SevenTVToTelegramBot.

(** [start_command(update, context)] *)
Definition start_command : coroutine unit :=
  reply_text ("🤖 Welcome to 7TV to Telegram Stickers Bot!" ++ String "010" (String "010"
              ("Send me your 7TV emote set ID using:" ++ String "010"
               ("/convert <SET_ID>" ++ String "010" (String "010"
                "To find your set ID, go to your 7TV profile and copy the ID from the URL."))))).

(** ** Scenarios

    Concrete collaborators, for running the pipeline on explicit inputs. *)

Module Scenario.

Definition webp2x : file := {| file_name := "2x.webp"; file_format := "WEBP" |}.
Definition webp1x : file := {| file_name := "1x.webp"; file_format := "WEBP" |}.
Definition avif2x : file := {| file_name := "2x.avif"; file_format := "AVIF" |}.
Definition png1x : file := {| file_name := "1x.png"; file_format := "PNG" |}.

(** An emote served from [//cdn.7tv.app/emote/<name>]. *)
Definition emote_at (name : string) (files : list file) : emote :=
  {| emote_name := name;
     host_url := "//cdn.7tv.app/emote/" ++ name;
     host_files := files |}.

Definition good : emote := emote_at "good" [avif2x; webp1x; webp2x].
Definition low : emote := emote_at "low" [avif2x; webp1x].
Definition broken : emote := emote_at "broken" [webp2x].
Definition garbled : emote := emote_at "garbled" [webp2x].
Definition avif_only : emote := emote_at "avifonly" [avif2x; png1x].

Definition a_set (emotes : list emote) : emotes_data :=
  {| data_name := Some "My Emotes"; data_emotes := Some emotes |}.

(** The 7TV API: known set ids answer 200, any other 404. *)
Definition sets (set_id : string) : option emotes_data :=
  if String.eqb set_id "sixty" then Some (a_set (repeat good 60))
  else if String.eqb set_id "three" then Some (a_set [good; low; good])
  else if String.eqb set_id "mixed" then Some (a_set [good; broken; avif_only; garbled; low])
  else if String.eqb set_id "avif" then Some (a_set [avif_only])
  else if String.eqb set_id "empty" then Some (a_set [])
  else if String.eqb set_id "nokey" then Some {| data_name := None; data_emotes := None |}
  else None.

Definition reply (st : Z) (d : result emotes_data) (bytes : list Byte.byte) : response :=
  {| status := st; json := d; read := bytes |}.

Definition not_json : result emotes_data :=
  Raise (LibraryError "Attempt to decode JSON with unexpected mimetype").

(** The network: the 7TV API under [https://7tv.io/v3/emote-sets/], and
    the image host, which fails with 500 for the emote [broken], serves
    bytes that are no image for [garbled] and a picture otherwise. *)
Definition net (url : string) : result response :=
  let api := "https://7tv.io/v3/emote-sets/" in
  if String.prefix api url then
    match sets (substring (String.length api) (String.length url) url) with
    | Some d => Ok (reply 200 (Ok d) [])
    | None => Ok (reply 404 not_json [])
    end
  else if String.prefix "https://cdn.7tv.app/emote/broken/" url then
    Ok (reply 500 not_json [])
  else if String.prefix "https://cdn.7tv.app/emote/garbled/" url then
    Ok (reply 200 not_json [Byte.x00])
  else Ok (reply 200 not_json [Byte.x52; Byte.x49; Byte.x46; Byte.x46]).

(** Pillow: the payload [[0]] is no image; any other decodes to a
    128 by 32 picture without alpha channel. *)
Definition decode (bytes : list Byte.byte) : result PIL.Image :=
  match bytes with
  | [Byte.x00] => Raise (LibraryError "cannot identify image file")
  | _ => Ok {| PIL.img_mode := "RGB"; PIL.img_width := 128;
               PIL.img_height := 32; PIL.img_resampled := None |}
  end.

(** Telegram: a set needs between 1 and 50 stickers. *)
Definition telegram (req : sticker_set_request) : result bool :=
  match req_stickers req with
  | [] => Raise (LibraryError "Bad Request: STICKERS_EMPTY")
  | _ => if (length (req_stickers req) <=? 50)%nat then Ok true
         else Raise (LibraryError "Bad Request: STICKERS_TOO_MUCH")
  end.

Definition the_world : world :=
  {| http_get := net;
     image_open := decode;
     get_me_username := Ok "emote_bot";
     create_new_sticker_set := telegram |}.

End Scenario.

(** ** Reading a run

    Projections of a trace, and what one turn of the loop contributes; the
    lemmas below relate them to the code. *)

Definition publish_calls (t : list event) : list sticker_set_request :=
  flat_map (fun ev => match ev with EvCreateNewStickerSet req => [req] | _ => [] end) t.

Definition http_gets (t : list event) : list string :=
  flat_map (fun ev => match ev with EvHttpGet url => [url] | _ => [] end) t.

Definition printed (t : list event) : list string :=
  flat_map (fun ev => match ev with EvPrint line => [line] | _ => [] end) t.

Definition replies (t : list event) : list string :=
  flat_map (fun ev => match ev with EvReplyText text => [text] | _ => [] end) t.

(** The URL of the 7TV API for a set. *)
Definition api_url (set_id : string) : string :=
  "https://7tv.io/v3/emote-sets/" ++ set_id.

(** The sticker the loop builds around a transcoded image. *)
Definition input_sticker (image_data : PIL.BytesIO) : InputSticker :=
  {| sticker := image_data; emoji_list := ["😀"]; format := "static" |}.

(** The stickers one emote adds to the batch: one when a URL is found and
    the download and transcoding go through, none otherwise. *)
Definition new_stickers (w : world) (e : emote) : list InputSticker :=
  match best_image_url e with
  | Some u =>
      match fst (download_emote_image w u) with
      | Ok image_data => [input_sticker image_data]
      | Raise _ => []
      end
  | None => []
  end.

(** The events of one turn of the loop. *)
Definition emote_trace (w : world) (e : emote) : list event :=
  match best_image_url e with
  | Some u =>
      [EvHttpGet u;
       EvPrint
         match fst (download_emote_image w u) with
         | Ok _ => "Processed emote: " ++ emote_name e
         | Raise x => "Failed to process emote " ++ emote_name e ++ ": " ++ str x
         end]
  | None => []
  end.

(** What [create_telegram_sticker_set] makes of the platform's answer. *)
Definition publish_outcome (set_name : string) (answer : result bool) : result string :=
  match answer with
  | Ok true => Ok ("https://t.me/addstickers/" ++ set_name)
  | Ok false =>
      Raise (Exception "Error creating sticker set: Failed to create sticker set")
  | Raise x => Raise (Exception ("Error creating sticker set: " ++ str x))
  end.

(** The request [create_telegram_sticker_set] sends for a list of stickers. *)
Definition request_for
    (user_id : Z) (set_name set_title : string) (stickers : list InputSticker)
  : sticker_set_request :=
  {| req_user_id := user_id;
     req_name := set_name;
     req_title := set_title;
     req_stickers := firstn 50 stickers;
     req_sticker_format := "static" |}.

(** The shape Telegram asks of a static sticker: a 512 by 512 PNG with an
    alpha channel; here also resized with the Lanczos filter and rewound. *)
Definition conforming (b : PIL.BytesIO) : Prop :=
  PIL.buf_format b = "PNG"
  /\ PIL.img_mode (PIL.buf_image b) = "RGBA"
  /\ PIL.img_width (PIL.buf_image b) = 512
  /\ PIL.img_height (PIL.buf_image b) = 512
  /\ PIL.img_resampled (PIL.buf_image b) = Some PIL.LANCZOS
  /\ PIL.buf_pos b = 0.

(** The emote ends up as a sticker: a URL is found for it and its download
    and transcoding go through. *)
Definition usable (w : world) (e : emote) : bool :=
  match best_image_url e with
  | Some u => is_ok (fst (download_emote_image w u))
  | None => false
  end.

(** The URLs the loop asks for, in the order of the emotes. *)
Definition chosen_urls (emotes : list emote) : list string :=
  flat_map (fun e => match best_image_url e with Some u => [u] | None => [] end)
    emotes.

(** The file name is one of the two the bot looks for. *)
Definition wanted_name (host : file) : Prop :=
  file_name host = "2x.webp" \/ file_name host = "1x.webp".

(** ** The coroutine monad *)

Section MonadFacts.
Context {E A B : Type}.
Implicit Types (m : M E A) (k : A -> M E B).

Lemma bind_ok a (t : list E) k :
  bind (Ok a, t) k = (fst (k a), (t ++ snd (k a))%list).
Proof. reflexivity. Qed.

Lemma bind_raise x (t : list E) k :
  bind (Raise x, t) k = (Raise x, t).
Proof. reflexivity. Qed.

Lemma bind_ret a k : bind (ret a) k = k a.
Proof. unfold bind, ret. simpl. now destruct (k a). Qed.

Lemma try_except_ok a (t : list E) (h : exn -> M E A) :
  try_except (Ok a, t) h = (Ok a, t).
Proof. reflexivity. Qed.

Lemma try_except_raise x (t : list E) (h : exn -> M E A) :
  try_except (Raise x, t) h = (fst (h x), (t ++ snd (h x))%list).
Proof. reflexivity. Qed.
End MonadFacts.

(** ** Choosing the image URL *)

Lemma file_url_truthy e host : truthy (Some (file_url e host)) = true.
Proof. reflexivity. Qed.

(** The two scans, as one nested case analysis. *)
Lemma best_image_url_scans e :
  best_image_url e =
  match scan_files "2x.webp" (host_files e) with
  | Some host => Some (file_url e host)
  | None =>
      match scan_files "1x.webp" (host_files e) with
      | Some host => Some (file_url e host)
      | None => None
      end
  end.
Proof.
  unfold best_image_url.
  destruct (scan_files "2x.webp" (host_files e)) as [host|]; [|reflexivity].
  now rewrite file_url_truthy.
Qed.

Lemma best_image_url_truthy e : truthy (best_image_url e) = true <-> best_image_url e <> None.
Proof.
  rewrite best_image_url_scans.
  destruct (scan_files "2x.webp" (host_files e));
    [|destruct (scan_files "1x.webp" (host_files e))];
    rewrite ?file_url_truthy; simpl; split; congruence.
Qed.


Lemma scan_files_none wanted files :
  (forall h, In h files -> file_name h <> wanted) ->
  scan_files wanted files = None.
Proof.
  intros Hall. unfold scan_files.
  induction files as [|h files IH]; simpl; [reflexivity|].
  destruct (String.eqb_spec (file_name h) wanted) as [Heq|_].
  - exfalso. apply (Hall h); [now left | exact Heq].
  - apply IH. intros h' Hin. apply Hall. now right.
Qed.

Lemma scan_files_some wanted files host :
  scan_files wanted files = Some host ->
  In host files /\ file_name host = wanted.
Proof.
  unfold scan_files. intros H. apply find_some in H.
  destruct H as [Hin Heq]. split; [exact Hin|].
  now apply String.eqb_eq.
Qed.

(** ** Downloading and transcoding *)

(** A download makes one request, whatever comes of it. *)
Lemma download_trace w u : snd (download_emote_image w u) = [EvHttpGet u].
Proof.
  unfold download_emote_image, call.
  destruct (http_get w u) as [resp|x]; [|reflexivity].
  rewrite bind_ok.
  destruct (status resp =? 200); [|reflexivity].
  destruct (image_open w (read resp)); reflexivity.
Qed.

(** The result of a download that went through. *)
Lemma download_ok_inv w u buf :
  fst (download_emote_image w u) = Ok buf ->
  exists resp img,
    http_get w u = Ok resp /\ status resp = 200
    /\ image_open w (read resp) = Ok img
    /\ buf = PIL.seek 0 (PIL.save "PNG" (PIL.resize (512, 512) PIL.LANCZOS
               (if negb (String.eqb (PIL.img_mode img) "RGBA")
                then PIL.convert "RGBA" img else img))).
Proof.
  unfold download_emote_image, call.
  destruct (http_get w u) as [resp|x]; [|discriminate].
  rewrite bind_ok.
  destruct (Z.eqb_spec (status resp) 200) as [Hst|Hst]; [|discriminate].
  destruct (image_open w (read resp)) as [img|x] eqn:Himg; [|discriminate].
  simpl. intros [= <-]. exists resp, img. repeat split; assumption.
Qed.

Lemma download_conforming w u buf :
  fst (download_emote_image w u) = Ok buf -> conforming buf.
Proof.
  intros H. apply download_ok_inv in H.
  destruct H as (resp & img & _ & _ & _ & ->).
  unfold conforming. simpl.
  destruct (String.eqb_spec (PIL.img_mode img) "RGBA") as [Hm|Hm]; simpl;
    repeat split; try reflexivity; exact Hm.
Qed.

(** ** The loop over the emotes *)

Lemma process_emote_run w stickers e :
  process_emote w stickers e
  = (Ok (stickers ++ new_stickers w e)%list, emote_trace w e).
Proof.
  unfold process_emote, new_stickers, emote_trace.
  destruct (best_image_url e) as [u|] eqn:Hu.
  - assert (Ht : truthy (Some u) = true).
    { rewrite <- Hu. apply best_image_url_truthy. congruence. }
    rewrite Ht.
    pose proof (download_trace w u) as Htr.
    destruct (download_emote_image w u) as [[buf|x] t]; simpl in Htr; subst t.
    + reflexivity.
    + rewrite bind_raise, try_except_raise. simpl fst.
      now rewrite app_nil_r.
  - simpl. now rewrite app_nil_r.
Qed.

Lemma for_each_process_emote w emotes stickers :
  for_each (process_emote w) emotes stickers
  = (Ok (stickers ++ flat_map (new_stickers w) emotes)%list,
     flat_map (emote_trace w) emotes).
Proof.
  revert stickers.
  induction emotes as [|e emotes IH]; intros stickers; simpl.
  - now rewrite app_nil_r.
  - rewrite process_emote_run, bind_ok, IH. simpl.
    now rewrite <- app_assoc.
Qed.

Lemma new_stickers_length w e : (length (new_stickers w e) <= 1)%nat.
Proof.
  unfold new_stickers.
  destruct (best_image_url e); [|simpl; lia].
  destruct (fst (download_emote_image w _)); simpl; lia.
Qed.

Lemma new_stickers_conforming w e s :
  In s (new_stickers w e) -> conforming (sticker s).
Proof.
  unfold new_stickers.
  destruct (best_image_url e) as [u|]; [|intros []].
  destruct (fst (download_emote_image w u)) as [buf|x] eqn:Hd; [|intros []].
  intros [<-|[]]. simpl. now apply (download_conforming w u).
Qed.

Lemma publish_calls_app t1 t2 :
  publish_calls (t1 ++ t2) = (publish_calls t1 ++ publish_calls t2)%list.
Proof. apply flat_map_app. Qed.

Lemma publish_calls_emote_trace w e : publish_calls (emote_trace w e) = [].
Proof. unfold emote_trace. now destruct (best_image_url e). Qed.

Lemma publish_calls_loop w emotes :
  publish_calls (flat_map (emote_trace w) emotes) = [].
Proof.
  induction emotes as [|e emotes IH]; simpl; [reflexivity|].
  now rewrite publish_calls_app, publish_calls_emote_trace, IH.
Qed.

(** ** Publishing *)

Lemma create_telegram_sticker_set_run w user_id set_name set_title d emotes :
  data_emotes d = Some emotes ->
  let req := request_for user_id set_name set_title
               (flat_map (new_stickers w) emotes) in
  create_telegram_sticker_set w user_id set_name set_title d
  = (publish_outcome set_name (create_new_sticker_set w req),
     (flat_map (emote_trace w) emotes ++ [EvCreateNewStickerSet req])%list).
Proof.
  intros Hd req.
  unfold create_telegram_sticker_set, getitem_emotes. rewrite Hd.
  rewrite bind_ret, for_each_process_emote, bind_ok, app_nil_l.
  subst req. unfold call, publish_outcome, request_for.
  destruct (create_new_sticker_set w _) as [[|]|x]; reflexivity.
Qed.

Lemma create_telegram_sticker_set_nokey w user_id set_name set_title d :
  data_emotes d = None ->
  create_telegram_sticker_set w user_id set_name set_title d
  = (Raise (KeyError "emotes"), []).
Proof.
  intros Hd. unfold create_telegram_sticker_set, getitem_emotes.
  now rewrite Hd.
Qed.

(** ** The whole conversion *)

Lemma convert_7tv_set_run w user_id set_id custom_name resp d handle emotes :
  http_get w (api_url set_id) = Ok resp ->
  status resp = 200 ->
  json resp = Ok d ->
  get_me_username w = Ok handle ->
  data_emotes d = Some emotes ->
  let set_name := derive_set_name set_id custom_name handle in
  let req := request_for user_id set_name (get_name d set_id)
               (flat_map (new_stickers w) emotes) in
  convert_7tv_set w user_id set_id custom_name
  = (match publish_outcome set_name (create_new_sticker_set w req) with
     | Ok url => Ok (url, length emotes)
     | Raise x => Raise x
     end,
     (EvHttpGet (api_url set_id) :: EvGetMe
        :: flat_map (emote_trace w) emotes ++ [EvCreateNewStickerSet req])%list).
Proof.
  intros Hget Hst Hjs Hme Hd set_name req.
  unfold convert_7tv_set, get_7tv_emote_set, call.
  fold (api_url set_id). rewrite Hget, bind_ok, Hst. simpl (200 =? 200).
  cbv iota. rewrite Hjs, bind_ok. unfold ret at 1. simpl fst. simpl snd.
  rewrite bind_ok, Hme, bind_ok.
  rewrite (create_telegram_sticker_set_run w _ _ _ d emotes Hd).
  fold set_name. cbv zeta. fold req. simpl fst. simpl snd.
  unfold len_get_emotes. rewrite Hd.
  clearbody req.
  destruct (publish_outcome set_name (create_new_sticker_set w req)) as [url|x].
  - rewrite bind_ok. unfold ret. simpl. now rewrite app_nil_r.
  - rewrite bind_raise. reflexivity.
Qed.

Lemma in_publish_calls req t :
  In (EvCreateNewStickerSet req) t <-> In req (publish_calls t).
Proof.
  unfold publish_calls. rewrite in_flat_map. split.
  - intros H. exists (EvCreateNewStickerSet req). split; [exact H | now left].
  - intros [ev [Hin Hreq]]. destruct ev; simpl in Hreq; try contradiction.
    destruct Hreq as [->|[]]. exact Hin.
Qed.

(** A conversion either stops before the loop, having made at most the
    metadata request and [get_me], or it reaches the loop. *)
Lemma convert_7tv_set_cases w user_id set_id custom_name :
  (is_ok (fst (convert_7tv_set w user_id set_id custom_name)) = false
   /\ (snd (convert_7tv_set w user_id set_id custom_name) = [EvHttpGet (api_url set_id)]
       \/ snd (convert_7tv_set w user_id set_id custom_name)
          = [EvHttpGet (api_url set_id); EvGetMe]))
  \/ (exists resp d handle emotes,
        http_get w (api_url set_id) = Ok resp /\ status resp = 200
        /\ json resp = Ok d /\ get_me_username w = Ok handle
        /\ data_emotes d = Some emotes).
Proof.
  destruct (http_get w (api_url set_id)) as [resp|x] eqn:Hget.
  2:{ left. unfold convert_7tv_set, get_7tv_emote_set, call.
      fold (api_url set_id). rewrite Hget. split; [reflexivity | now left]. }
  destruct (Z.eqb_spec (status resp) 200) as [Hst|Hst].
  2:{ left. unfold convert_7tv_set, get_7tv_emote_set, call.
      fold (api_url set_id). rewrite Hget, bind_ok.
      apply Z.eqb_neq in Hst. rewrite Hst. split; [reflexivity | now left]. }
  destruct (json resp) as [d|x] eqn:Hjs.
  2:{ left. unfold convert_7tv_set, get_7tv_emote_set, call.
      fold (api_url set_id). rewrite Hget, bind_ok, Hst, Hjs.
      split; [reflexivity | now left]. }
  destruct (get_me_username w) as [handle|x] eqn:Hme.
  2:{ left. unfold convert_7tv_set, get_7tv_emote_set, call.
      fold (api_url set_id). rewrite Hget, bind_ok, Hst, Hjs, Hme.
      split; [reflexivity | now right]. }
  destruct (data_emotes d) as [emotes|] eqn:Hd.
  2:{ left. unfold convert_7tv_set, get_7tv_emote_set, call.
      fold (api_url set_id). rewrite Hget, bind_ok, Hst, Hjs, Hme.
      simpl. rewrite (create_telegram_sticker_set_nokey w _ _ _ d Hd).
      split; [reflexivity | now right]. }
  right. exists resp, d, handle, emotes. repeat split; assumption.
Qed.

(** The request of a conversion that published, read back from its trace. *)
Lemma convert_7tv_set_published w user_id set_id custom_name req :
  In (EvCreateNewStickerSet req) (snd (convert_7tv_set w user_id set_id custom_name)) ->
  exists resp d handle emotes,
    http_get w (api_url set_id) = Ok resp /\ status resp = 200
    /\ json resp = Ok d /\ get_me_username w = Ok handle
    /\ data_emotes d = Some emotes
    /\ req = request_for user_id (derive_set_name set_id custom_name handle)
               (get_name d set_id) (flat_map (new_stickers w) emotes).
Proof.
  intros Hin.
  destruct (convert_7tv_set_cases w user_id set_id custom_name)
    as [[_ [Ht|Ht]] | (resp & d & handle & emotes & Hget & Hst & Hjs & Hme & Hd)].
  - rewrite Ht in Hin. destruct Hin as [Hin|[]]. discriminate.
  - rewrite Ht in Hin. destruct Hin as [Hin|[Hin|[]]]; discriminate.
  - exists resp, d, handle, emotes. repeat split; try assumption.
    rewrite (convert_7tv_set_run w user_id set_id custom_name resp d handle emotes
               Hget Hst Hjs Hme Hd) in Hin.
    cbv zeta in Hin. simpl snd in Hin.
    apply in_publish_calls in Hin.
    change (EvHttpGet (api_url set_id) :: EvGetMe :: ?t)
      with ([EvHttpGet (api_url set_id); EvGetMe] ++ t)%list in Hin.
    rewrite !publish_calls_app, publish_calls_loop in Hin.
    simpl in Hin. destruct Hin as [<-|[]]. reflexivity.
Qed.

(** * The count a conversion reports *)

(** C1.  On a set of 60 emotes that all resolve and transcode, with a
    platform that accepts the set, the conversion succeeds and sends 50
    stickers, yet the count it returns is 60 and the handler tells the user
    [Successfully converted 60 emotes!]: the count is the size of the fetched
    set, not the number of stickers published. *)
Theorem sixty_emotes_reported_as_sixty :
  let emotes := repeat Scenario.good 60 in
  let run := convert_7tv_set Scenario.the_world 7 "sixty" None in
  length (flat_map (new_stickers Scenario.the_world) emotes) = 60%nat
  /\ fst run = Ok ("https://t.me/addstickers/7tv_sixty_by_emote_bot", 60%nat)
  /\ map (fun req => length (req_stickers req)) (publish_calls (snd run)) = [50%nat]
  /\ last (replies (snd (convert_command Scenario.the_world ["sixty"] 7))) ""
     = "✅ Successfully converted 60 emotes!" ++ String "010"
       "Add your sticker set: https://t.me/addstickers/7tv_sixty_by_emote_bot".
Proof. vm_compute. repeat split. Qed.

(** * An empty batch *)




(** * Failures of one emote *)

(** C3, as stated, fails: in a set of five emotes, [avifonly] has no
    acceptable file, and the run leaves no record of it: the printed lines
    name the four others only, and the result is a URL and a count. *)
Lemma unresolved_emote_leaves_no_record :
  let run := convert_7tv_set Scenario.the_world 7 "mixed" None in
  In Scenario.avif_only [Scenario.good; Scenario.broken; Scenario.avif_only;
                         Scenario.garbled; Scenario.low]
  /\ best_image_url Scenario.avif_only = None
  /\ printed (snd run)
     = ["Processed emote: good";
        "Failed to process emote broken: Failed to download image: 500";
        "Failed to process emote garbled: cannot identify image file";
        "Processed emote: low"]
  /\ fst run = Ok ("https://t.me/addstickers/7tv_mixed_by_emote_bot", 5%nat).
Proof. vm_compute. repeat split. right. right. now left. Qed.

(** C3, amended.  An emote whose resolution or transcoding fails does not
    stop the loop: the loop goes on with the next emote and ends with the
    stickers of the other emotes, in order, and the first 50 of those are
    what is sent to the platform.  A failed download or transcoding prints
    one line, [Failed to process emote <name>: <reason>]; an emote with no
    acceptable file is passed over without any record.  The conversion keeps
    no failure list. *)
Theorem failed_emote_does_not_stop_the_loop w pre e post stickers :
  best_image_url e = None
  \/ (exists u x, best_image_url e = Some u
                  /\ fst (download_emote_image w u) = Raise x) ->
  fst (process_emote w stickers e) = Ok stickers
  /\ fst (for_each (process_emote w) (pre ++ e :: post)%list stickers)
     = fst (for_each (process_emote w) (pre ++ post)%list stickers)
  /\ is_ok (fst (for_each (process_emote w) (pre ++ e :: post)%list stickers)) = true
  /\ snd (for_each (process_emote w) (pre ++ e :: post)%list stickers)
     = (snd (for_each (process_emote w) pre stickers)
        ++ snd (process_emote w stickers e)
        ++ snd (for_each (process_emote w) post stickers))%list
  /\ (best_image_url e = None -> snd (process_emote w stickers e) = [])
  /\ (forall u x,
        best_image_url e = Some u ->
        fst (download_emote_image w u) = Raise x ->
        snd (process_emote w stickers e)
        = [EvHttpGet u;
           EvPrint ("Failed to process emote " ++ emote_name e ++ ": " ++ str x)])
  /\ (forall user_id set_name set_title name all,
        fst (for_each (process_emote w) (pre ++ post)%list []) = Ok all ->
        publish_calls
          (snd (create_telegram_sticker_set w user_id set_name set_title
                  {| data_name := name;
                     data_emotes := Some (pre ++ e :: post)%list |}))
        = [ {| req_user_id := user_id;
               req_name := set_name;
               req_title := set_title;
               req_stickers := firstn 50 all;
               req_sticker_format := "static" |} ]).
Proof.
  intros Hfail.
  assert (Hnew : new_stickers w e = []).
  { unfold new_stickers. destruct Hfail as [->|(u & x & -> & ->)]; reflexivity. }
  split; [|split; [|split; [|split; [|split; [|split]]]]].
  - rewrite process_emote_run, Hnew. simpl fst. now rewrite app_nil_r.
  - rewrite !for_each_process_emote, !flat_map_app. simpl flat_map.
    now rewrite Hnew.
  - now rewrite for_each_process_emote.
  - rewrite !for_each_process_emote, process_emote_run, !flat_map_app.
    reflexivity.
  - intros Hn. rewrite process_emote_run. unfold emote_trace. now rewrite Hn.
  - intros u x Hu Hx. rewrite process_emote_run. unfold emote_trace.
    now rewrite Hu, Hx.
  - intros user_id set_name set_title name all Hall.
    rewrite for_each_process_emote in Hall. simpl fst in Hall.
    injection Hall as <-.
    rewrite (create_telegram_sticker_set_run w user_id set_name set_title
               {| data_name := name; data_emotes := Some (pre ++ e :: post)%list |}
               (pre ++ e :: post)%list eq_refl).
    cbv zeta. simpl snd.
    rewrite publish_calls_app, publish_calls_loop.
    rewrite !flat_map_app. simpl flat_map. rewrite Hnew. reflexivity.
Qed.

Lemma failed_emote_does_not_stop_the_loop_witness :
  fst (for_each (process_emote Scenario.the_world)
         ([Scenario.good] ++ Scenario.broken :: [Scenario.low])%list [])
  = fst (for_each (process_emote Scenario.the_world)
           ([Scenario.good] ++ [Scenario.low])%list []).
Proof.
  apply (failed_emote_does_not_stop_the_loop Scenario.the_world
           [Scenario.good] Scenario.broken [Scenario.low] []).
  right. exists "https://cdn.7tv.app/emote/broken/2x.webp",
                (Exception "Failed to download image: 500").
  split; reflexivity.
Defined.

(** * The size of the batch *)

(** C4.  Whatever the set and whatever the collaborators answer, a request
    the conversion sends to the platform carries at most 50 stickers: it
    carries the first 50 of those the loop collected, and what becomes of the
    conversion is decided by the platform's answer to that request alone, so
    the stickers past the fiftieth are left out and raise nothing. *)
Theorem published_batch_within_capacity w :
  (forall user_id set_id custom_name req,
     In (EvCreateNewStickerSet req)
        (snd (convert_7tv_set w user_id set_id custom_name)) ->
     (length (req_stickers req) <= 50)%nat)
  /\ (forall user_id set_name set_title d emotes all,
        data_emotes d = Some emotes ->
        fst (for_each (process_emote w) emotes []) = Ok all ->
        let req := {| req_user_id := user_id;
                      req_name := set_name;
                      req_title := set_title;
                      req_stickers := firstn 50 all;
                      req_sticker_format := "static" |} in
        publish_calls
          (snd (create_telegram_sticker_set w user_id set_name set_title d)) = [req]
        /\ fst (create_telegram_sticker_set w user_id set_name set_title d)
           = publish_outcome set_name (create_new_sticker_set w req)).
Proof.
  split.
  - intros user_id set_id custom_name req Hin.
    apply convert_7tv_set_published in Hin.
    destruct Hin as (resp & d & handle & emotes & _ & _ & _ & _ & _ & ->).
    unfold request_for. cbn [req_stickers]. apply firstn_le_length.
  - intros user_id set_name set_title d emotes all Hd Hall req.
    rewrite for_each_process_emote in Hall. simpl in Hall.
    injection Hall as Hall.
    rewrite (create_telegram_sticker_set_run w _ _ _ d emotes Hd).
    cbv zeta. rewrite Hall.
    change (request_for user_id set_name set_title all) with req.
    clearbody req. simpl. split; [|reflexivity].
    now rewrite publish_calls_app, publish_calls_loop.
Qed.

Lemma published_batch_within_capacity_witness :
  (length (req_stickers
             (request_for 7 "7tv_sixty_by_emote_bot" "My Emotes"
                (flat_map (new_stickers Scenario.the_world)
                   (repeat Scenario.good 60)))) <= 50)%nat.
Proof.
  apply (proj1 (published_batch_within_capacity Scenario.the_world)
           7 "sixty" None).
  apply in_publish_calls. vm_compute. left. reflexivity.
Defined.

(** * Which file is chosen *)



(** * The shape of a transcoded image *)

Lemma in_firstn_in {A} (x : A) n l : In x (firstn n l) -> In x l.
Proof.
  revert l. induction n as [|n IH]; intros [|y l]; simpl; try tauto.
  intros [->|Hin]; [now left | right; now apply IH].
Qed.

(** C6.  Whatever image the decoder returns (any mode, any width and
    height), a download that goes through yields a PNG buffer, rewound,
    holding an RGBA image of exactly 512 by 512 produced by [resize] with the
    Lanczos filter, which is not the nearest-neighbour one; and every sticker
    of every request the conversion sends to the platform has this shape. *)
Theorem transcoded_image_conforms w :
  (forall url buf,
     fst (download_emote_image w url) = Ok buf ->
     conforming buf
     /\ PIL.img_resampled (PIL.buf_image buf) <> Some PIL.NEAREST)
  /\ (forall user_id set_id custom_name req s,
        In (EvCreateNewStickerSet req)
           (snd (convert_7tv_set w user_id set_id custom_name)) ->
        In s (req_stickers req) ->
        conforming (sticker s)).
Proof.
  split.
  - intros url buf Hok. pose proof (download_conforming w url buf Hok) as Hc.
    split; [exact Hc|].
    destruct Hc as (_ & _ & _ & _ & -> & _). discriminate.
  - intros user_id set_id custom_name req s Hin Hs.
    apply convert_7tv_set_published in Hin.
    destruct Hin as (resp & d & handle & emotes & _ & _ & _ & _ & _ & ->).
    unfold request_for in Hs. cbn [req_stickers] in Hs.
    apply in_firstn_in in Hs. apply in_flat_map in Hs.
    destruct Hs as (e & _ & Hs). now apply (new_stickers_conforming w e).
Qed.

Lemma transcoded_image_conforms_witness :
  conforming
    (PIL.seek 0 (PIL.save "PNG" (PIL.resize (512, 512) PIL.LANCZOS
       (PIL.convert "RGBA"
          {| PIL.img_mode := "RGB"; PIL.img_width := 128;
             PIL.img_height := 32; PIL.img_resampled := None |}))))
  /\ Some PIL.LANCZOS <> Some PIL.NEAREST.
Proof.
  apply (proj1 (transcoded_image_conforms Scenario.the_world)
           "https://cdn.7tv.app/emote/good/2x.webp").
  reflexivity.
Defined.

(** * A failed metadata fetch *)

(** C7.  When the 7TV API answers with a status other than 200, the
    conversion raises [Failed to fetch 7TV data: <status>], and the metadata
    request is the only thing it did: no image is downloaded and the platform
    is not called. *)
Theorem metadata_failure_stops_conversion w user_id set_id custom_name resp :
  http_get w (api_url set_id) = Ok resp ->
  status resp <> 200 ->
  convert_7tv_set w user_id set_id custom_name
  = (Raise (Exception ("Failed to fetch 7TV data: " ++ str_int (status resp))),
     [EvHttpGet (api_url set_id)]).
Proof.
  intros Hget Hst.
  unfold convert_7tv_set, get_7tv_emote_set, call.
  fold (api_url set_id). rewrite Hget, bind_ok.
  apply Z.eqb_neq in Hst. rewrite Hst. reflexivity.
Qed.

Lemma metadata_failure_stops_conversion_witness :
  convert_7tv_set Scenario.the_world 7 "gone" None
  = (Raise (Exception "Failed to fetch 7TV data: 404"),
     [EvHttpGet "https://7tv.io/v3/emote-sets/gone"]).
Proof.
  apply (metadata_failure_stops_conversion Scenario.the_world 7 "gone" None
           (Scenario.reply 404 Scenario.not_json [])).
  - reflexivity.
  - discriminate.
Defined.

(** * The name of the set *)

(** C8.  With a custom name the set is named [<custom>_by_<handle>],
    without one [7tv_<set id>_by_<handle>]; the code tests [if custom_name],
    so an empty custom name counts as none.  The name under which a
    conversion publishes is this function of the set id, the custom name and
    the bot's handle, and of nothing else. *)
Theorem set_name_scheme set_id handle :
  (forall a c,
     derive_set_name set_id (Some (String a c)) handle
     = String a c ++ "_by_" ++ handle)
  /\ derive_set_name set_id None handle = "7tv_" ++ set_id ++ "_by_" ++ handle
  /\ derive_set_name set_id (Some "") handle = "7tv_" ++ set_id ++ "_by_" ++ handle
  /\ (forall w user_id custom_name req,
        get_me_username w = Ok handle ->
        In (EvCreateNewStickerSet req)
           (snd (convert_7tv_set w user_id set_id custom_name)) ->
        req_name req = derive_set_name set_id custom_name handle).
Proof.
  repeat split.
  intros w user_id custom_name req Hme Hin.
  apply convert_7tv_set_published in Hin.
  destruct Hin as (resp & d & handle' & emotes & _ & _ & _ & Hme' & _ & ->).
  rewrite Hme in Hme'. injection Hme' as <-. reflexivity.
Qed.

Lemma set_name_scheme_witness :
  req_name
    (request_for 7 "mine_by_emote_bot" "My Emotes"
       (flat_map (new_stickers Scenario.the_world)
          [Scenario.good; Scenario.low; Scenario.good]))
  = derive_set_name "three" (Some "mine") "emote_bot".
Proof.
  apply (proj2 (proj2 (proj2 (set_name_scheme "three" "emote_bot")))
           Scenario.the_world 7 (Some "mine")).
  - reflexivity.
  - apply in_publish_calls. vm_compute. left. reflexivity.
Defined.

(** * Only the two webp names *)

(** C9.  A URL is chosen only for a file whose name is exactly [2x.webp] or
    [1x.webp], and the URL is built from that file; an emote none of whose
    files has one of these two names, whatever else they are called, gets no
    URL and is passed over: no download, no sticker, no output. *)
Theorem only_webp_names_resolve e :
  (forall u,
     best_image_url e = Some u ->
     exists host,
       In host (host_files e) /\ wanted_name host /\ u = file_url e host)
  /\ ((forall host, In host (host_files e) -> ~ wanted_name host) ->
      best_image_url e = None
      /\ forall w stickers, process_emote w stickers e = (Ok stickers, [])).
Proof.
  split.
  - intros u. rewrite best_image_url_scans.
    destruct (scan_files "2x.webp" (host_files e)) as [host|] eqn:H2.
    + intros [= <-]. apply scan_files_some in H2. destruct H2 as [Hin Hn].
      exists host. unfold wanted_name. auto.
    + destruct (scan_files "1x.webp" (host_files e)) as [host|] eqn:H1;
        [|discriminate].
      intros [= <-]. apply scan_files_some in H1. destruct H1 as [Hin Hn].
      exists host. unfold wanted_name. auto.
  - intros Hnone.
    assert (Hb : best_image_url e = None).
    { rewrite best_image_url_scans.
      rewrite !scan_files_none; [reflexivity | |];
        intros h Hin Hn; apply (Hnone h Hin); unfold wanted_name; auto. }
    split; [exact Hb|].
    intros w stickers. rewrite process_emote_run.
    unfold new_stickers, emote_trace. rewrite Hb. now rewrite app_nil_r.
Qed.

Lemma only_webp_names_resolve_witness :
  best_image_url Scenario.avif_only = None
  /\ forall w stickers,
       process_emote w stickers Scenario.avif_only = (Ok stickers, []).
Proof.
  apply (proj2 (only_webp_names_resolve Scenario.avif_only)).
  intros host [<-|[<-|[]]] [H|H]; discriminate.
Defined.

(** * A payload without the [emotes] key *)

(** C10.  When the 7TV API answers 200 with an object that has no [emotes]
    key, [emotes_data['emotes']] raises [KeyError('emotes')] before any emote
    is looked at; nothing in the conversion catches it, so it leaves
    [convert_7tv_set], after the metadata request and [get_me] and with no
    call to the platform, although the count at the end of the same function
    would read the missing key as an empty list. *)
Theorem missing_emotes_key_raises w user_id set_id custom_name resp d handle :
  http_get w (api_url set_id) = Ok resp ->
  status resp = 200 ->
  json resp = Ok d ->
  get_me_username w = Ok handle ->
  data_emotes d = None ->
  convert_7tv_set w user_id set_id custom_name
  = (Raise (KeyError "emotes"), [EvHttpGet (api_url set_id); EvGetMe])
  /\ len_get_emotes d = 0%nat.
Proof.
  intros Hget Hst Hjs Hme Hd. split.
  - unfold convert_7tv_set, get_7tv_emote_set, call.
    fold (api_url set_id). rewrite Hget, bind_ok, Hst, Hjs, Hme.
    cbn [fst snd bind ret Z.eqb Pos.eqb app].
    now rewrite (create_telegram_sticker_set_nokey w _ _ _ d Hd).
  - unfold len_get_emotes. now rewrite Hd.
Qed.

Lemma missing_emotes_key_raises_witness :
  convert_7tv_set Scenario.the_world 7 "nokey" None
  = (Raise (KeyError "emotes"),
     [EvHttpGet "https://7tv.io/v3/emote-sets/nokey"; EvGetMe])
  /\ len_get_emotes {| data_name := None; data_emotes := None |} = 0%nat.
Proof.
  apply (missing_emotes_key_raises Scenario.the_world 7 "nokey" None
           (Scenario.reply 200 (Ok {| data_name := None; data_emotes := None |}) [])
           {| data_name := None; data_emotes := None |} "emote_bot");
    reflexivity.
Defined.

(** * The [/convert] handler *)


(** X2.  Called with no argument, or with more than one, the handler only
    answers with the usage text: no request goes out, and the surplus
    arguments are not looked at. *)
Theorem convert_command_usage w args user_id :
  length args <> 1%nat ->
  convert_command w args user_id
  = (Ok tt,
     [EvReplyText ("Usage: /convert <7TV_SET_ID>" ++ String "010"
                   "Example: /convert 01K1BPC2WFZB8QA3T04MPBTSS9")]).
Proof.
  intros Hlen. destruct args as [|a [|b args]]; try reflexivity.
  now elim Hlen.
Qed.

Lemma convert_command_usage_witness :
  convert_command Scenario.the_world ["three"; "mine"] 7
  = (Ok tt,
     [EvReplyText ("Usage: /convert <7TV_SET_ID>" ++ String "010"
                   "Example: /convert 01K1BPC2WFZB8QA3T04MPBTSS9")]).
Proof.
  apply (convert_command_usage Scenario.the_world ["three"; "mine"] 7).
  discriminate.
Defined.

(** * Fetching the set *)

(** X3.  [get_7tv_emote_set] makes one request, to
    [https://7tv.io/v3/emote-sets/<set id>], whatever the answer; it returns
    a payload exactly when the answer has status 200 and a body that parses,
    and then returns that body; a transport error and a parse error leave
    the function as they were raised. *)
Theorem get_7tv_emote_set_outcomes w set_id :
  snd (get_7tv_emote_set w set_id) = [EvHttpGet (api_url set_id)]
  /\ (forall d,
        fst (get_7tv_emote_set w set_id) = Ok d <->
        exists resp,
          http_get w (api_url set_id) = Ok resp
          /\ status resp = 200 /\ json resp = Ok d)
  /\ (forall x,
        http_get w (api_url set_id) = Raise x ->
        fst (get_7tv_emote_set w set_id) = Raise x)
  /\ (forall resp x,
        http_get w (api_url set_id) = Ok resp ->
        status resp = 200 -> json resp = Raise x ->
        fst (get_7tv_emote_set w set_id) = Raise x).
Proof.
  unfold get_7tv_emote_set, call. fold (api_url set_id).
  destruct (http_get w (api_url set_id)) as [resp|x0].
  - rewrite bind_ok.
    destruct (Z.eqb_spec (status resp) 200) as [Hst|Hst].
    + destruct (json resp) as [d0|x0] eqn:Hjs; simpl; repeat split;
        try discriminate; try congruence.
      * intros [= <-]. exists resp. auto.
      * intros (r & [= <-] & _ & Hj). congruence.
      * intros (r & [= <-] & _ & Hj). congruence.
    + simpl. repeat split; try discriminate; try congruence.
      intros (r & [= <-] & Hs & _). contradiction.
  - rewrite bind_raise. simpl. repeat split; try discriminate; try congruence.
    intros (r & Hr & _). discriminate.
Qed.

(** * Downloading an image *)

(** X4.  [download_emote_image] returns a buffer exactly when the request
    goes through, the status is 200 and the body decodes as an image. *)
Theorem download_emote_image_succeeds_iff w url :
  is_ok (fst (download_emote_image w url)) = true <->
  exists resp img,
    http_get w url = Ok resp /\ status resp = 200
    /\ image_open w (read resp) = Ok img.
Proof.
  split.
  - destruct (fst (download_emote_image w url)) as [buf|x] eqn:Hd;
      [|discriminate].
    intros _. apply download_ok_inv in Hd.
    destruct Hd as (resp & img & Hget & Hst & Himg & _).
    exists resp, img. auto.
  - intros (resp & img & Hget & Hst & Himg).
    unfold download_emote_image, call.
    rewrite Hget, bind_ok, Hst. cbn [Z.eqb Pos.eqb]. rewrite Himg. reflexivity.
Qed.

(** X5.  The ways a download fails: an answer with a status other than 200
    raises [Failed to download image: <status>] without the body being
    decoded; a transport error and a decoder error leave the function as
    they were raised.  In each case, as in the case of success, one request
    was made. *)
Theorem download_emote_image_failures w url :
  snd (download_emote_image w url) = [EvHttpGet url]
  /\ (forall resp,
        http_get w url = Ok resp -> status resp <> 200 ->
        fst (download_emote_image w url)
        = Raise (Exception ("Failed to download image: " ++ str_int (status resp))))
  /\ (forall x,
        http_get w url = Raise x ->
        fst (download_emote_image w url) = Raise x)
  /\ (forall resp x,
        http_get w url = Ok resp -> status resp = 200 ->
        image_open w (read resp) = Raise x ->
        fst (download_emote_image w url) = Raise x).
Proof.
  split; [apply download_trace|].
  unfold download_emote_image, call. repeat split.
  - intros resp Hget Hst. rewrite Hget, bind_ok.
    apply Z.eqb_neq in Hst. now rewrite Hst.
  - intros x Hget. now rewrite Hget.
  - intros resp x Hget Hst Himg. rewrite Hget, bind_ok, Hst.
    cbn [Z.eqb Pos.eqb]. now rewrite Himg.
Qed.

Lemma get_7tv_emote_set_outcomes_witness :
  fst (get_7tv_emote_set Scenario.the_world "empty") = Ok (Scenario.a_set []).
Proof.
  apply (proj1 (proj2 (get_7tv_emote_set_outcomes Scenario.the_world "empty"))).
  exists (Scenario.reply 200 (Ok (Scenario.a_set [])) []).
  repeat split.
Defined.

Lemma download_emote_image_succeeds_iff_witness :
  is_ok (fst (download_emote_image Scenario.the_world
                "https://cdn.7tv.app/emote/good/2x.webp")) = true.
Proof.
  apply (download_emote_image_succeeds_iff Scenario.the_world).
  exists (Scenario.reply 200 Scenario.not_json
            [Byte.x52; Byte.x49; Byte.x46; Byte.x46]),
         {| PIL.img_mode := "RGB"; PIL.img_width := 128;
            PIL.img_height := 32; PIL.img_resampled := None |}.
  repeat split.
Defined.

Lemma download_emote_image_failures_witness :
  fst (download_emote_image Scenario.the_world
         "https://cdn.7tv.app/emote/broken/2x.webp")
  = Raise (Exception "Failed to download image: 500").
Proof.
  apply (proj1 (proj2 (download_emote_image_failures Scenario.the_world
                         "https://cdn.7tv.app/emote/broken/2x.webp"))
           (Scenario.reply 500 Scenario.not_json [])).
  - reflexivity.
  - discriminate.
Defined.

(** * What the loop collects and asks for *)

Lemma new_stickers_usable w e :
  length (new_stickers w e) = if usable w e then 1%nat else 0%nat.
Proof.
  unfold new_stickers, usable.
  destruct (best_image_url e) as [u|]; [|reflexivity].
  now destruct (fst (download_emote_image w u)).
Qed.

Lemma collected_length w emotes :
  length (flat_map (new_stickers w) emotes) = length (filter (usable w) emotes).
Proof.
  induction emotes as [|e emotes IH]; simpl; [reflexivity|].
  rewrite length_app, new_stickers_usable, IH.
  now destruct (usable w e).
Qed.

Lemma http_gets_app t1 t2 :
  http_gets (t1 ++ t2) = (http_gets t1 ++ http_gets t2)%list.
Proof. apply flat_map_app. Qed.

Lemma http_gets_loop w emotes :
  http_gets (flat_map (emote_trace w) emotes) = chosen_urls emotes.
Proof.
  unfold chosen_urls.
  induction emotes as [|e emotes IH]; simpl; [reflexivity|].
  rewrite http_gets_app, IH. unfold emote_trace at 1.
  now destruct (best_image_url e).
Qed.

(** X6.  The number of stickers in the request a conversion sends is the
    number of emotes of the payload that end up as a sticker, or 50 if there
    are more of them. *)
Theorem published_batch_size w user_id set_id custom_name resp d emotes req :
  http_get w (api_url set_id) = Ok resp ->
  json resp = Ok d ->
  data_emotes d = Some emotes ->
  In (EvCreateNewStickerSet req)
     (snd (convert_7tv_set w user_id set_id custom_name)) ->
  length (req_stickers req) = Nat.min 50 (length (filter (usable w) emotes)).
Proof.
  intros Hget Hjs Hd Hin.
  apply convert_7tv_set_published in Hin.
  destruct Hin as (resp' & d' & handle & emotes' & Hget' & _ & Hjs' & _ & Hd' & ->).
  rewrite Hget in Hget'. injection Hget' as <-.
  rewrite Hjs in Hjs'. injection Hjs' as <-.
  rewrite Hd in Hd'. injection Hd' as <-.
  unfold request_for. cbn [req_stickers].
  now rewrite length_firstn, collected_length.
Qed.

(** X7.  A conversion that reaches the loop asks for the image of every
    emote for which a URL is found, once each and in the order of the
    payload, also for the emotes past the fiftieth sticker: the loop does not
    stop when the set is full. *)
Theorem every_resolved_emote_is_downloaded
    w user_id set_id custom_name resp d handle emotes :
  http_get w (api_url set_id) = Ok resp ->
  status resp = 200 ->
  json resp = Ok d ->
  get_me_username w = Ok handle ->
  data_emotes d = Some emotes ->
  http_gets (snd (convert_7tv_set w user_id set_id custom_name))
  = api_url set_id :: chosen_urls emotes.
Proof.
  intros Hget Hst Hjs Hme Hd.
  rewrite (convert_7tv_set_run w user_id set_id custom_name resp d handle emotes
             Hget Hst Hjs Hme Hd).
  cbv zeta. simpl snd.
  change (EvHttpGet (api_url set_id) :: EvGetMe :: ?t)
    with ([EvHttpGet (api_url set_id); EvGetMe] ++ t)%list.
  rewrite !http_gets_app, http_gets_loop.
  cbn [http_gets flat_map app]. now rewrite app_nil_r.
Qed.

Lemma published_batch_size_witness :
  length (req_stickers
            (request_for 7 "7tv_sixty_by_emote_bot" "My Emotes"
               (flat_map (new_stickers Scenario.the_world)
                  (repeat Scenario.good 60))))
  = Nat.min 50 (length (filter (usable Scenario.the_world)
                          (repeat Scenario.good 60))).
Proof.
  apply (published_batch_size Scenario.the_world 7 "sixty" None
           (Scenario.reply 200 (Ok (Scenario.a_set (repeat Scenario.good 60))) [])
           (Scenario.a_set (repeat Scenario.good 60))).
  - reflexivity.
  - reflexivity.
  - reflexivity.
  - apply in_publish_calls. vm_compute. left. reflexivity.
Defined.

Lemma every_resolved_emote_is_downloaded_witness :
  http_gets (snd (convert_7tv_set Scenario.the_world 7 "mixed" None))
  = api_url "mixed"
    :: chosen_urls [Scenario.good; Scenario.broken; Scenario.avif_only;
                    Scenario.garbled; Scenario.low].
Proof.
  apply (every_resolved_emote_is_downloaded Scenario.the_world 7 "mixed" None
           (Scenario.reply 200
              (Ok (Scenario.a_set [Scenario.good; Scenario.broken;
                                   Scenario.avif_only; Scenario.garbled;
                                   Scenario.low])) [])
           (Scenario.a_set [Scenario.good; Scenario.broken; Scenario.avif_only;
                            Scenario.garbled; Scenario.low])
           "emote_bot");
    reflexivity.
Defined.

(** * How a conversion ends *)



(** X9.  A conversion that returns did all of this: the 7TV API answered
    200 with a payload that has an [emotes] key, [get_me] gave the handle,
    the platform answered [True] to the request; the URL returned is
    [https://t.me/addstickers/] followed by the name of the set, and the
    count returned is the number of emotes of the payload. *)
Theorem convert_7tv_set_success w user_id set_id custom_name url count :
  fst (convert_7tv_set w user_id set_id custom_name) = Ok (url, count) ->
  exists resp d handle emotes,
    http_get w (api_url set_id) = Ok resp /\ status resp = 200
    /\ json resp = Ok d /\ get_me_username w = Ok handle
    /\ data_emotes d = Some emotes
    /\ create_new_sticker_set w
         (request_for user_id (derive_set_name set_id custom_name handle)
            (get_name d set_id) (flat_map (new_stickers w) emotes)) = Ok true
    /\ url = "https://t.me/addstickers/"
             ++ derive_set_name set_id custom_name handle
    /\ count = length emotes.
Proof.
  intros Hok.
  destruct (convert_7tv_set_cases w user_id set_id custom_name)
    as [[Hno _] | (resp & d & handle & emotes & Hget & Hst & Hjs & Hme & Hd)].
  - rewrite Hok in Hno. discriminate.
  - exists resp, d, handle, emotes.
    rewrite (convert_7tv_set_run w user_id set_id custom_name resp d handle emotes
               Hget Hst Hjs Hme Hd) in Hok.
    cbv zeta in Hok. simpl fst in Hok. unfold publish_outcome in Hok.
    destruct (create_new_sticker_set w _) as [[|]|x0] eqn:Hans;
      try discriminate.
    injection Hok as <- <-. repeat split; assumption.
Qed.

Lemma convert_7tv_set_success_witness :
  exists resp d handle emotes,
    http_get Scenario.the_world (api_url "three") = Ok resp /\ status resp = 200
    /\ json resp = Ok d /\ get_me_username Scenario.the_world = Ok handle
    /\ data_emotes d = Some emotes
    /\ create_new_sticker_set Scenario.the_world
         (request_for 7 (derive_set_name "three" None handle)
            (get_name d "three")
            (flat_map (new_stickers Scenario.the_world) emotes)) = Ok true
    /\ "https://t.me/addstickers/7tv_three_by_emote_bot"
       = "https://t.me/addstickers/" ++ derive_set_name "three" None handle
    /\ 3%nat = length emotes.
Proof.
  apply (convert_7tv_set_success Scenario.the_world 7 "three" None).
  reflexivity.
Defined.

(** X10.  A conversion calls the platform at most once, and when it does,
    the call is the last thing it does: nothing is retried and nothing is
    fetched after a set has been submitted. *)
Theorem at_most_one_publish_call w user_id set_id custom_name :
  (length (publish_calls (snd (convert_7tv_set w user_id set_id custom_name))) <= 1)%nat
  /\ forall req,
       In (EvCreateNewStickerSet req)
          (snd (convert_7tv_set w user_id set_id custom_name)) ->
       exists before,
         snd (convert_7tv_set w user_id set_id custom_name)
         = (before ++ [EvCreateNewStickerSet req])%list
         /\ publish_calls before = [].
Proof.
  destruct (convert_7tv_set_cases w user_id set_id custom_name)
    as [[_ [Ht|Ht]] | (resp & d & handle & emotes & Hget & Hst & Hjs & Hme & Hd)].
  - rewrite Ht. split; [simpl; lia|]. intros req [Hin|[]]. discriminate.
  - rewrite Ht. split; [simpl; lia|]. intros req [Hin|[Hin|[]]]; discriminate.
  - pose proof (convert_7tv_set_run w user_id set_id custom_name resp d handle
                  emotes Hget Hst Hjs Hme Hd) as Hrun.
    cbv zeta in Hrun.
    set (req0 := request_for user_id _ _ _) in Hrun. clearbody req0.
    assert (Hcalls : publish_calls
                       (snd (convert_7tv_set w user_id set_id custom_name))
                     = [req0]).
    { rewrite Hrun. simpl snd.
      change (EvHttpGet (api_url set_id) :: EvGetMe :: ?t)
        with ([EvHttpGet (api_url set_id); EvGetMe] ++ t)%list.
      now rewrite !publish_calls_app, publish_calls_loop. }
    split; [rewrite Hcalls; simpl; lia|].
    intros req Hin. apply in_publish_calls in Hin. rewrite Hcalls in Hin.
    destruct Hin as [<-|[]].
    exists (EvHttpGet (api_url set_id) :: EvGetMe
              :: flat_map (emote_trace w) emotes).
    split; [now rewrite Hrun|].
    change (EvHttpGet (api_url set_id) :: EvGetMe :: ?t)
      with ([EvHttpGet (api_url set_id); EvGetMe] ++ t)%list.
    now rewrite publish_calls_app, publish_calls_loop.
Qed.

Lemma at_most_one_publish_call_witness :
  exists before,
    snd (convert_7tv_set Scenario.the_world 7 "empty" None)
    = (before
       ++ [EvCreateNewStickerSet
             (request_for 7 "7tv_empty_by_emote_bot" "My Emotes" [])])%list
    /\ publish_calls before = [].
Proof.
  apply (proj2 (at_most_one_publish_call Scenario.the_world 7 "empty" None)).
  right. right. left. reflexivity.
Defined.



(** X12.  When [get_me] raises, the conversion raises the same exception,
    having fetched the metadata and nothing else: the handle is asked for
    before any image. *)
Theorem get_me_failure_stops_conversion w user_id set_id custom_name resp d x :
  http_get w (api_url set_id) = Ok resp ->
  status resp = 200 ->
  json resp = Ok d ->
  get_me_username w = Raise x ->
  convert_7tv_set w user_id set_id custom_name
  = (Raise x, [EvHttpGet (api_url set_id); EvGetMe]).
Proof.
  intros Hget Hst Hjs Hme.
  unfold convert_7tv_set, get_7tv_emote_set, call.
  fold (api_url set_id). rewrite Hget, bind_ok, Hst, Hjs, Hme. reflexivity.
Qed.

Lemma get_me_failure_stops_conversion_witness :
  convert_7tv_set
    {| http_get := Scenario.net;
       image_open := Scenario.decode;
       get_me_username := Raise (LibraryError "Unauthorized");
       create_new_sticker_set := Scenario.telegram |}
    7 "three" None
  = (Raise (LibraryError "Unauthorized"),
     [EvHttpGet (api_url "three"); EvGetMe]).
Proof.
  apply (get_me_failure_stops_conversion _ 7 "three" None
           (Scenario.reply 200
              (Ok (Scenario.a_set [Scenario.good; Scenario.low; Scenario.good])) [])
           (Scenario.a_set [Scenario.good; Scenario.low; Scenario.good]));
    reflexivity.
Defined.

(** * Names do not collide *)

Lemma append_cancel_l (p a b : string) : p ++ a = p ++ b -> a = b.
Proof.
  induction p as [|c p IH]; simpl; [trivial|].
  intros [= H]. now apply IH.
Qed.

Lemma length_append (a b : string) :
  String.length (a ++ b) = (String.length a + String.length b)%nat.
Proof. induction a as [|c a IH]; simpl; [reflexivity | now rewrite IH]. Qed.

Lemma append_cancel_r (a b c : string) : a ++ c = b ++ c -> a = b.
Proof.
  revert b. induction a as [|x a IH]; intros [|y b] H; simpl in H.
  - reflexivity.
  - apply (f_equal String.length) in H. simpl in H.
    rewrite length_append in H. lia.
  - apply (f_equal String.length) in H. simpl in H.
    rewrite length_append in H. lia.
  - injection H as -> H. f_equal. now apply IH.
Qed.

(** X13.  For one bot, the names derived for two sets are the same only if
    the set ids are the same, and two custom names give the same name only
    if they are the same; for one set, two handles give the same default
    name only if they are the same handle. *)
Theorem set_names_do_not_collide :
  (forall set_id1 set_id2 handle,
     derive_set_name set_id1 None handle = derive_set_name set_id2 None handle ->
     set_id1 = set_id2)
  /\ (forall set_id1 set_id2 a1 c1 a2 c2 handle,
        derive_set_name set_id1 (Some (String a1 c1)) handle
        = derive_set_name set_id2 (Some (String a2 c2)) handle ->
        String a1 c1 = String a2 c2)
  /\ (forall set_id handle1 handle2,
        derive_set_name set_id None handle1 = derive_set_name set_id None handle2 ->
        handle1 = handle2).
Proof.
  repeat split.
  - intros s1 s2 h H. unfold derive_set_name in H. cbn [truthy] in H.
    apply append_cancel_l in H.
    apply (append_cancel_r s1 s2 ("_by_" ++ h)). exact H.
  - intros s1 s2 a1 c1 a2 c2 h H.
    apply (append_cancel_r _ _ ("_by_" ++ h)). exact H.
  - intros s h1 h2 H. unfold derive_set_name in H. cbn [truthy] in H.
    apply append_cancel_l in H. apply append_cancel_l in H.
    apply (append_cancel_l "_by_"). exact H.
Qed.

Lemma set_names_do_not_collide_witness : "three" = "three".
Proof.
  apply (proj1 set_names_do_not_collide "three" "three" "emote_bot").
  reflexivity.
Defined.
